(** * focus_tasks: the daily-reset and task reconciliation core of src/app.js

    A shallow embedding of the state handling of [src/app.js]: the global
    [state] object, [loadState], [saveState], [checkMidnightReset],
    [performDailyReset], [ensureDailyTasks], [init], [toggleTask],
    [updateDailyTask] and [removeDailyTask]. Rendering, the clock and the
    DOM wiring read the state but never write it, so they are left out. *)

From Stdlib Require Import String Ascii ZArith.
From stdpp Require Import base list strings.

Open Scope string_scope.

(** ** Data model *)

(** [type: 'daily' | 'extra'] *)
Inductive TaskType := Daily | Extra.

Definition TaskType_eqb (a b : TaskType) : bool :=
  match a, b with
  | Daily, Daily | Extra, Extra => true
  | _, _ => false
  end.

(** [{ id, text, completed, type, dateAdded }] *)
Record Task := mkTask {
  task_id : string;
  task_text : string;
  completed : bool;
  task_type : TaskType;
  dateAdded : string
}.

(** A routine template [{ id, text, type: 'daily' }]. *)
Record Template := mkTemplate {
  tmpl_id : string;
  tmpl_text : string;
  tmpl_type : TaskType
}.

Record Settings := mkSettings {
  font : Z;
  timeFormat : string;
  dateFormat : string;
  themeColor : string
}.

(** The global [state]; [lastOpenDate] is [null] ([None]) or a
    [toDateString()] value. *)
Record AppState := mkAppState {
  tasks : list Task;
  dailyRoutine : list Template;
  settings : Settings;
  lastOpenDate : option string
}.

(** [DEFAULT_DAILY_TASKS] (lines 9-13). *)
Definition DEFAULT_DAILY_TASKS : list Template := [
  mkTemplate "dt1" "Morning Stretch" Daily;
  mkTemplate "dt2" "Read 15 Mins" Daily;
  mkTemplate "dt3" "Clear Inbox" Daily ].

(** The initial value of [let state = {...}] (lines 16-26). *)
Definition initial_state : AppState := {|
  tasks := [];
  dailyRoutine := [];
  settings := mkSettings 1 "12h" "Month" "green";
  lastOpenDate := None
|}.

Definition set_tasks (l : list Task) (s : AppState) : AppState :=
  {| tasks := l; dailyRoutine := dailyRoutine s; settings := settings s;
     lastOpenDate := lastOpenDate s |}.
Definition set_dailyRoutine (l : list Template) (s : AppState) : AppState :=
  {| tasks := tasks s; dailyRoutine := l; settings := settings s;
     lastOpenDate := lastOpenDate s |}.
Definition set_lastOpenDate (d : option string) (s : AppState) : AppState :=
  {| tasks := tasks s; dailyRoutine := dailyRoutine s; settings := settings s;
     lastOpenDate := d |}.

(** The stored blob, as [loadState] sees it after
    [localStorage.getItem] and [JSON.parse]. A blob whose JSON object
    lacks a key has [None] in that field; [dailyRoutine] and
    [lastOpenDate] may also be present with the value [null]. *)
Record SavedState := mkSaved {
  saved_tasks : option (list Task);
  saved_dailyRoutine : option (option (list Template));
  saved_settings : option Settings;
  saved_lastOpenDate : option (option string)
}.

(** [localStorage.getItem(STORAGE_KEY)] followed by [JSON.parse(raw)]:
    - [BlobAbsent]: [raw] is [null] or [""] (falsy, first-run branch);
    - [BlobMalformed]: [raw] is a non-empty string that is not JSON, so
      [JSON.parse] throws a [SyntaxError];
    - [BlobParsed]: [raw] parses to an object of the AppState shape. *)
Inductive StoredBlob :=
  | BlobAbsent
  | BlobMalformed
  | BlobParsed (saved : SavedState).

(** ** Effects: state, storage writes, fresh identifiers, exceptions *)

(** The world a handler runs in: the global [state], the number of
    [generateId()] calls made so far, and the log of every blob written by
    [saveState] (oldest first). *)
Record World := mkWorld {
  st : AppState;
  id_calls : nat;
  storage_writes : list AppState
}.

Inductive JsError := SyntaxError | TypeError.

(** A JS completion: normal, or an exception thrown. A throw keeps the
    world as mutated so far, as JavaScript does. *)
Inductive Completion (A : Type) :=
  | Normal (a : A)
  | Abrupt (e : JsError).
Arguments Normal {A} a.
Arguments Abrupt {A} e.

Definition M (A : Type) : Type := World -> Completion A * World.

Definition ret {A} (a : A) : M A := fun w => (Normal a, w).

Definition bind {A B} (c : M A) (k : A -> M B) : M B := fun w =>
  match c w with
  | (Normal a, w') => k a w'
  | (Abrupt e, w') => (Abrupt e, w')
  end.

Notation "'let*' x ':=' c 'in' k" := (bind c (fun x => k))
  (at level 200, x name, c at level 100, k at level 200).
Notation "c1 ;; c2" := (bind c1 (fun _ => c2))
  (at level 100, right associativity).

Definition throw {A} (e : JsError) : M A := fun w => (Abrupt e, w).
Definition get_state : M AppState := fun w => (Normal (st w), w).
Definition modify_state (f : AppState -> AppState) : M unit := fun w =>
  (Normal tt, {| st := f (st w); id_calls := id_calls w;
                 storage_writes := storage_writes w |}).

(** [saveState()]: [localStorage.setItem(STORAGE_KEY, JSON.stringify(state))],
    a snapshot of the whole state. *)
Definition saveState : M unit := fun w =>
  (Normal tt, {| st := st w; id_calls := id_calls w;
                 storage_writes := storage_writes w ++ [st w] |}).

Fixpoint mapM {A B} (f : A -> M B) (l : list A) : M (list B) :=
  match l with
  | [] => ret []
  | x :: l' => let* y := f x in let* ys := mapM f l' in ret (y :: ys)
  end.

(** String comparison with [===]. *)
Definition opt_string_eqb (a : option string) (b : string) : bool :=
  match a with Some a => String.eqb a b | None => false end.

(** JS [String.prototype.trim]. Strings are sequences of code units below
    256; among them JS white space and line terminators are 9-13
    (TAB, LF, VT, FF, CR), 32 (SPACE) and 160 (NO-BREAK SPACE). *)
Definition is_js_space (c : ascii) : bool :=
  let n := nat_of_ascii c in (
  ((9 <=? n) && (n <=? 13)) || (n =? 32) || (n =? 160))%nat.

Fixpoint trim_start (s : string) : string :=
  match s with
  | EmptyString => EmptyString
  | String c s' => if is_js_space c then trim_start s' else s
  end.

Definition trim_end (s : string) : string :=
  string_of_list_ascii
    (rev (list_ascii_of_string (trim_start
      (string_of_list_ascii (rev (list_ascii_of_string s)))))).

Definition trim (s : string) : string := trim_start (trim_end s).

Section Program.

(** [generateId()] returns [Math.random]-derived text; the [n]-th call
    returns [random_id n]. *)
Variable random_id : nat -> string.

Definition generateId : M string := fun w =>
  (Normal (random_id (id_calls w)),
   {| st := st w; id_calls := S (id_calls w);
      storage_writes := storage_writes w |}).

(** [t => ({ ...t, id: generateId(), completed: false, dateAdded: d })] *)
Definition instantiate (d : string) (t : Template) : M Task :=
  let* nid := generateId in
  ret {| task_id := nid; task_text := tmpl_text t; completed := false;
         task_type := tmpl_type t; dateAdded := d |}.

(** [loadState()] (lines 87-109). *)
Definition loadState (raw : StoredBlob) (today : string) : M unit :=
  match raw with
  | BlobMalformed => throw SyntaxError
  | BlobParsed saved =>
      (* state = { ...state, ...saved } *)
      let* s := get_state in
      let routine : option (list Template) :=
        match saved_dailyRoutine saved with
        | Some v => v
        | None => Some (dailyRoutine s)
        end in
      (* if (!state.dailyRoutine) state.dailyRoutine = [...DEFAULT_DAILY_TASKS] *)
      let routine' := match routine with
                      | Some l => l
                      | None => DEFAULT_DAILY_TASKS
                      end in
      modify_state (fun s =>
        {| tasks := match saved_tasks saved with
                    | Some l => l | None => tasks s end;
           dailyRoutine := routine';
           settings := match saved_settings saved with
                       | Some x => x | None => settings s end;
           lastOpenDate := match saved_lastOpenDate saved with
                           | Some d => d | None => lastOpenDate s end |})
  | BlobAbsent =>
      modify_state (set_dailyRoutine DEFAULT_DAILY_TASKS) ;;
      modify_state (set_lastOpenDate (Some today)) ;;
      let* s := get_state in
      let* l := mapM (instantiate today) (dailyRoutine s) in
      modify_state (set_tasks l) ;;
      saveState
  end.

(** [performDailyReset(todayDate)] (lines 125-143). *)
Definition performDailyReset (todayDate : string) : M unit :=
  let* s := get_state in
  let* newDailyTasks := mapM (instantiate todayDate) (dailyRoutine s) in
  modify_state (set_tasks newDailyTasks) ;;
  modify_state (set_lastOpenDate (Some todayDate)) ;;
  saveState.

(** [checkMidnightReset()] (lines 116-123). *)
Definition checkMidnightReset (today : string) : M unit :=
  let* s := get_state in
  if negb (opt_string_eqb (lastOpenDate s) today)
  then performDailyReset today
  else ret tt.

(** [ensureDailyTasks()] (lines 69-84). *)
Definition ensureDailyTasks (today : string) : M unit :=
  let* s := get_state in
  let hasDailyTasks := existsb (fun t => TaskType_eqb (task_type t) Daily)
                               (tasks s) in
  if negb hasDailyTasks && (0 <? length (dailyRoutine s))%nat then
    let* dailyTasksToAdd := mapM (instantiate today) (dailyRoutine s) in
    let* s' := get_state in
    modify_state (set_tasks (dailyTasksToAdd ++ tasks s')) ;;
    saveState
  else ret tt.

(** The startup reconciliation of [init()]: [checkMidnightReset()], then
    (after [applySettings()], which writes nothing) [ensureDailyTasks()]. *)
Definition reconcile (today : string) : M unit :=
  checkMidnightReset today ;; ensureDailyTasks today.

(** [init()] (lines 48-67), up to its state-writing steps. *)
Definition init (raw : StoredBlob) (today : string) : M unit :=
  loadState raw today ;; reconcile today.

(** [task.completed = !task.completed] *)
Definition flip_completed (t : Task) : Task :=
  {| task_id := task_id t; task_text := task_text t;
     completed := negb (completed t); task_type := task_type t;
     dateAdded := dateAdded t |}.

(** [state.tasks.find(t => t.id === id)] followed by the in-place flip of
    the found object: [None] when [find] returns [undefined]. *)
Fixpoint toggle_first (id : string) (l : list Task) : option (list Task) :=
  match l with
  | [] => None
  | t :: l' =>
      if String.eqb (task_id t) id then Some (flip_completed t :: l')
      else option_map (cons t) (toggle_first id l')
  end.

(** [toggleTask(id)] (lines 263-270). *)
Definition toggleTask (id : string) : M unit :=
  let* s := get_state in
  match toggle_first id (tasks s) with
  | Some l => modify_state (set_tasks l) ;; saveState
  | None => ret tt
  end.

(** [state.dailyRoutine[index]]: [undefined] ([None]) outside the array. *)
Definition js_index {A} (l : list A) (index : Z) : option A :=
  if (0 <=? index)%Z then l !! Z.to_nat index else None.

(** [updateDailyTask(index, newText)] (lines 273-278); assigning [.text]
    on [undefined] throws a [TypeError]. *)
Definition updateDailyTask (index : Z) (newText : string) : M unit :=
  if negb (String.eqb (trim newText) "") then
    let* s := get_state in
    match js_index (dailyRoutine s) index with
    | Some t =>
        modify_state (set_dailyRoutine
          (<[Z.to_nat index := {| tmpl_id := tmpl_id t;
                                  tmpl_text := trim newText;
                                  tmpl_type := tmpl_type t |}]>
             (dailyRoutine s))) ;;
        saveState
    | None => throw TypeError
    end
  else ret tt.

(** [Array.prototype.splice(start, 1)]: a negative [start] counts from the
    end (clamped at 0), a [start] past the end removes nothing. *)
Definition splice_remove1 {A} (start : Z) (l : list A) : list A :=
  let len := Z.of_nat (length l) in
  let k := if (start <? 0)%Z then Z.max (len + start) 0 else Z.min start len in
  take (Z.to_nat k) l ++ drop (S (Z.to_nat k)) l.

(** [removeDailyTask(index)] (lines 280-284). *)
Definition removeDailyTask (index : Z) : M unit :=
  modify_state (fun s => set_dailyRoutine (splice_remove1 index (dailyRoutine s)) s) ;;
  saveState.

(** [addTask(text)] (lines 248-261); clearing the input box is DOM work. *)
Definition addTask (text today : string) : M unit :=
  if String.eqb (trim text) "" then ret tt
  else
    let* nid := generateId in
    modify_state (fun s => set_tasks
      (tasks s ++ [{| task_id := nid; task_text := trim text; completed := false;
                      task_type := Extra; dateAdded := today |}]) s) ;;
    saveState.

(** [addDailyTemplate()] (lines 286-295); focusing the new input is DOM
    work. *)
Definition addDailyTemplate : M unit :=
  let* nid := generateId in
  modify_state (fun s => set_dailyRoutine
    (dailyRoutine s ++ [{| tmpl_id := nid; tmpl_text := ""; tmpl_type := Daily |}]) s) ;;
  saveState.

(** [resetDailyTasks()] (lines 145-148). *)
Definition resetDailyTasks (today : string) : M unit := performDailyReset today.

End Program.

Section Instances.

Variable random_id : nat -> string.

(** The tasks [instantiate] builds from [l] when the identifier counter
    starts at [n]. *)
Fixpoint instances (d : string) (n : nat) (l : list Template) : list Task :=
  match l with
  | [] => []
  | t :: l' =>
      {| task_id := random_id n; task_text := tmpl_text t; completed := false;
         task_type := tmpl_type t; dateAdded := d |} :: instances d (S n) l'
  end.

End Instances.

(** ** Settings handlers and HTML escaping *)

Definition set_settings (x : Settings) (s : AppState) : AppState :=
  {| tasks := tasks s; dailyRoutine := dailyRoutine s; settings := x;
     lastOpenDate := lastOpenDate s |}.

(** The time display click handler (lines 334-338):
    [timeFormat = timeFormat === '12h' ? '24h' : '12h'], then [saveState()]
    ([updateTime()] only redraws). *)
Definition toggleTimeFormat : M unit :=
  modify_state (fun s =>
    let x := settings s in
    set_settings {| font := font x;
                    timeFormat := if String.eqb (timeFormat x) "12h" then "24h" else "12h";
                    dateFormat := dateFormat x; themeColor := themeColor x |} s) ;;
  saveState.

(** [const formats = ['Month', 'MM/DD', 'DD/MM']] *)
Definition date_formats : list string := ["Month"; "MM/DD"; "DD/MM"].

(** [Array.prototype.indexOf] on strings: [-1] when absent. *)
Fixpoint indexOf (x : string) (l : list string) : Z :=
  match l with
  | [] => -1
  | y :: l' => if String.eqb y x then 0
               else let i := indexOf x l' in if (i <? 0)%Z then -1 else i + 1
  end.

(** The date display click handler (lines 340-347). JS [%] is [Z.rem];
    [nextIdx] always lies in [0, 3), so the [None] branch of the lookup
    (an [undefined] element) is never taken. *)
Definition cycleDateFormat : M unit :=
  modify_state (fun s =>
    let x := settings s in
    let currentIdx := indexOf (dateFormat x) date_formats in
    let nextIdx := Z.rem (currentIdx + 1) (Z.of_nat (length date_formats)) in
    set_settings {| font := font x; timeFormat := timeFormat x;
                    dateFormat := default "" (date_formats !! Z.to_nat nextIdx);
                    themeColor := themeColor x |} s) ;;
  saveState.

(** [s.replace(/c/g, rep)] for a one-character pattern [c]. *)
Fixpoint replace_char (c : ascii) (rep : string) (s : string) : string :=
  match s with
  | EmptyString => EmptyString
  | String d s' =>
      if Ascii.eqb d c then rep ++ replace_char c rep s'
      else String d (replace_char c rep s')
  end.

Definition dquote : ascii := ascii_of_nat 34.

(** [escapeHtml(text)] (lines 376-384), for a string argument ([!text]
    holds only for the empty string). *)
Definition escapeHtml (text : string) : string :=
  if String.eqb text "" then ""
  else replace_char "'" "&#039;"
         (replace_char dquote "&quot;"
           (replace_char ">" "&gt;"
             (replace_char "<" "&lt;"
               (replace_char "&" "&amp;" text)))).

(** What the browser shows for the five entities [escapeHtml] writes:
    the decoding of [&amp;], [&lt;], [&gt;], [&quot;] and [&#039;]. *)
Fixpoint decode_entities (l : list ascii) : list ascii :=
  match l with
  | [] => []
  | c :: r =>
      if Ascii.eqb c "&" then
        match r with
        | "l" :: "t" :: ";" :: r' => "<" :: decode_entities r'
        | "g" :: "t" :: ";" :: r' => ">" :: decode_entities r'
        | "a" :: "m" :: "p" :: ";" :: r' => "&" :: decode_entities r'
        | "q" :: "u" :: "o" :: "t" :: ";" :: r' => dquote :: decode_entities r'
        | "#" :: "0" :: "3" :: "9" :: ";" :: r' => "'" :: decode_entities r'
        | _ => c :: decode_entities r
        end%char
      else c :: decode_entities r
  end.

(** The blob [saveState] writes, read back by [JSON.parse]: every key
    present, with the state's own values ([JSON.stringify] keeps strings,
    booleans, numbers, arrays and [null] as they are). *)
Definition snapshot (s : AppState) : SavedState :=
  {| saved_tasks := Some (tasks s);
     saved_dailyRoutine := Some (Some (dailyRoutine s));
     saved_settings := Some (settings s);
     saved_lastOpenDate := Some (lastOpenDate s) |}.

(** Proof vocabulary: [trim_start] on character lists, and the
    per-character form of [escapeHtml]. *)
Fixpoint drop_spaces (l : list ascii) : list ascii :=
  match l with
  | [] => []
  | c :: r => if is_js_space c then drop_spaces r else l
  end.

Definition esc_char (c : ascii) : string :=
  if Ascii.eqb c "&" then "&amp;"
  else if Ascii.eqb c "<" then "&lt;"
  else if Ascii.eqb c ">" then "&gt;"
  else if Ascii.eqb c dquote then "&quot;"
  else if Ascii.eqb c "'" then "&#039;"
  else String c EmptyString.

Fixpoint esc_all (s : string) : string :=
  match s with
  | EmptyString => EmptyString
  | String c s' => esc_char c ++ esc_all s'
  end.

(** A list that does not start with a JavaScript whitespace character. *)
Definition good_head (l : list ascii) : Prop :=
  match l with [] => True | c :: _ => is_js_space c = false end.

(** A character that cannot open or close a tag or an attribute value. *)
Definition no_markup (x : ascii) : Prop :=
  x <> "<"%char /\ x <> ">"%char /\ x <> dquote /\ x <> "'"%char.

(** A character [escapeHtml] leaves as it is. *)
Definition plain_char (x : ascii) : Prop :=
  x <> "&"%char /\ no_markup x.

(** ** Concrete inputs *)

(** An identifier source for concrete runs: the [n]-th call gives ["_"]
    followed by one letter. *)
Definition sample_id (n : nat) : string :=
  String "_" (String (ascii_of_nat (97 + n)) EmptyString).

Definition world0 : World := mkWorld initial_state 0 [].

(** A stored blob of an older version: no [dailyRoutine] key. *)
Definition legacy_blob : SavedState :=
  mkSaved (Some [mkTask "t1" "Buy milk" true Extra "Mon Jan 01 2024"])
          None None (Some (Some "Mon Jan 01 2024")).

(** The scenario of the spec: routine [Stretch], one completed extra task
    from the previous day. *)
Definition scenario_state (last : string) : AppState := {|
  tasks := [mkTask "t1" "Buy milk" true Extra "Mon Jan 01 2024"];
  dailyRoutine := [mkTemplate "r1" "Stretch" Daily];
  settings := settings initial_state;
  lastOpenDate := Some last
|}.

Definition scenario_world (last : string) : World :=
  mkWorld (scenario_state last) 0 [].

(** Two tasks with distinct identifiers. *)
Definition two_task_world : World :=
  mkWorld (set_tasks [mkTask "t1" "Buy milk" false Extra "Tue Jan 02 2024";
                      mkTask "t2" "Call mom" true Extra "Tue Jan 02 2024"]
                     (scenario_state "Tue Jan 02 2024")) 0 [].

(** ** Step lemmas *)

Section Steps.

Variable random_id : nat -> string.

Lemma mapM_instantiate (d : string) (l : list Template) (w : World) :
  mapM (instantiate random_id d) l w =
  (Normal (instances random_id d (id_calls w) l),
   mkWorld (st w) (id_calls w + length l) (storage_writes w)).
Proof.
  revert w; induction l as [|t l IH]; intros [s n ws]; cbn.
  - now rewrite Nat.add_0_r.
  - unfold bind; cbn. rewrite IH; cbn.
    now rewrite Nat.add_succ_r.
Qed.

Lemma length_instances (d : string) (n : nat) (l : list Template) :
  length (instances random_id d n l) = length l.
Proof. revert n; induction l; intros n; cbn; auto. Qed.

Lemma lookup_instances (d : string) (n i : nat) (l : list Template) :
  instances random_id d n l !! i =
  (fun t => {| task_id := random_id (n + i); task_text := tmpl_text t;
               completed := false; task_type := tmpl_type t;
               dateAdded := d |}) <$> l !! i.
Proof.
  revert n i; induction l as [|t l IH]; intros n [|i]; cbn; auto.
  - now rewrite Nat.add_0_r.
  - rewrite IH. now rewrite Nat.add_succ_r.
Qed.

Lemma existsb_daily_instances (d : string) (n : nat) (l : list Template) :
  l <> [] -> Forall (fun t => tmpl_type t = Daily) l ->
  existsb (fun t => TaskType_eqb (task_type t) Daily) (instances random_id d n l) = true.
Proof.
  destruct l as [|t l]; [congruence|]. intros _ Hf.
  inversion Hf as [|? ? Ht _]; subst. cbn. now rewrite Ht.
Qed.

Lemma opt_string_eqb_true (a : option string) (b : string) :
  opt_string_eqb a b = true <-> a = Some b.
Proof.
  destruct a as [a|]; cbn; [|split; congruence].
  rewrite String.eqb_eq. split; congruence.
Qed.

Lemma performDailyReset_run (d : string) (w : World) :
  performDailyReset random_id d w =
  let s1 := {| tasks := instances random_id d (id_calls w) (dailyRoutine (st w));
               dailyRoutine := dailyRoutine (st w);
               settings := settings (st w);
               lastOpenDate := Some d |} in
  (Normal tt, mkWorld s1 (id_calls w + length (dailyRoutine (st w)))
                         (storage_writes w ++ [s1])).
Proof.
  destruct w as [s n ws]. unfold performDailyReset, bind at 1; cbn.
  unfold bind at 1. rewrite mapM_instantiate. reflexivity.
Qed.

Lemma checkMidnightReset_same (d : string) (w : World) :
  lastOpenDate (st w) = Some d -> checkMidnightReset random_id d w = (Normal tt, w).
Proof.
  intros H. unfold checkMidnightReset, bind, get_state; cbn.
  apply opt_string_eqb_true in H. now rewrite H.
Qed.

Lemma checkMidnightReset_differs (d : string) (w : World) :
  lastOpenDate (st w) <> Some d ->
  checkMidnightReset random_id d w = performDailyReset random_id d w.
Proof.
  intros H. unfold checkMidnightReset, bind at 1, get_state; cbn.
  destruct (opt_string_eqb (lastOpenDate (st w)) d) eqn:E; [|reflexivity].
  apply opt_string_eqb_true in E. contradiction.
Qed.

Lemma ensureDailyTasks_skip (d : string) (w : World) :
  existsb (fun t => TaskType_eqb (task_type t) Daily) (tasks (st w)) = true
  \/ dailyRoutine (st w) = [] ->
  ensureDailyTasks random_id d w = (Normal tt, w).
Proof.
  intros H. unfold ensureDailyTasks, bind at 1, get_state; cbn.
  destruct H as [H|H]; rewrite H; [reflexivity|].
  now rewrite andb_false_r.
Qed.

Lemma ensureDailyTasks_fire (d : string) (w : World) :
  existsb (fun t => TaskType_eqb (task_type t) Daily) (tasks (st w)) = false ->
  dailyRoutine (st w) <> [] ->
  ensureDailyTasks random_id d w =
  let s1 := set_tasks (instances random_id d (id_calls w) (dailyRoutine (st w))
                       ++ tasks (st w)) (st w) in
  (Normal tt, mkWorld s1 (id_calls w + length (dailyRoutine (st w)))
                         (storage_writes w ++ [s1])).
Proof.
  intros H Hne. destruct w as [s n ws].
  assert (Hl : (0 <? length (dailyRoutine s))%nat = true).
  { cbn in Hne. destruct (dailyRoutine s); cbn; [congruence|reflexivity]. }
  unfold ensureDailyTasks, bind, get_state; cbn in *. rewrite H, Hl; cbn.
  rewrite mapM_instantiate. reflexivity.
Qed.

End Steps.

Lemma existsb_daily_none (l : list Task) :
  Forall (fun t => task_type t <> Daily) l ->
  existsb (fun t => TaskType_eqb (task_type t) Daily) l = false.
Proof.
  induction 1 as [|t l Ht _ IH]; cbn; auto.
  rewrite IH. destruct (task_type t); cbn; congruence.
Qed.

Lemma toggle_first_none (id : string) (l : list Task) :
  toggle_first id l = None <-> Forall (fun t => task_id t <> id) l.
Proof.
  induction l as [|t l IH]; cbn.
  - split; auto.
  - rewrite Forall_cons. destruct (String.eqb (task_id t) id) eqn:E.
    + apply String.eqb_eq in E. split; [discriminate|]. intros [H _]; contradiction.
    + apply String.eqb_neq in E. rewrite <- IH.
      destruct (toggle_first id l); cbn; split; try discriminate; intuition congruence.
Qed.

Lemma toggle_first_ids (id : string) (l l' : list Task) :
  toggle_first id l = Some l' -> map task_id l' = map task_id l.
Proof.
  revert l'; induction l as [|t l IH]; intros l'; cbn; [discriminate|].
  destruct (String.eqb (task_id t) id).
  - now intros [= <-].
  - destruct (toggle_first id l) as [l''|] eqn:E; cbn; [|discriminate].
    intros [= <-]. cbn. now rewrite (IH l'').
Qed.

Lemma toggle_first_lookup (id : string) (l l' : list Task) :
  NoDup (map task_id l) -> toggle_first id l = Some l' ->
  forall (i : nat) (t : Task), l !! i = Some t ->
  l' !! i = Some (if String.eqb (task_id t) id then flip_completed t else t).
Proof.
  revert l'; induction l as [|t0 l IH]; intros l' Hnd; cbn; [discriminate|].
  cbn in Hnd. apply NoDup_cons in Hnd as [Hnotin Hnd].
  destruct (String.eqb (task_id t0) id) eqn:E.
  - intros [= <-] [|i] t Hi; cbn in Hi |- *.
    + injection Hi as <-. now rewrite E.
    + rewrite Hi. destruct (String.eqb (task_id t) id) eqn:E'; [|reflexivity].
      apply String.eqb_eq in E, E'. exfalso. apply Hnotin.
      apply list_elem_of_In, in_map_iff. exists t. split; [congruence|].
      apply list_elem_of_In. eapply list_elem_of_lookup_2; eauto.
  - destruct (toggle_first id l) as [l''|] eqn:Et; cbn; [|discriminate].
    intros [= <-] [|i] t Hi; cbn in Hi |- *.
    + injection Hi as <-. now rewrite E.
    + eapply IH; eauto.
Qed.

Lemma length_splice_remove1 {A} (index : Z) (l : list A) :
  (0 <= index < Z.of_nat (length l))%Z ->
  length (splice_remove1 index l) = length l - 1.
Proof.
  intros H. unfold splice_remove1.
  destruct (Z.ltb_spec index 0); [lia|].
  rewrite Z.min_l by lia.
  rewrite length_app, length_take, length_drop. lia.
Qed.

Lemma reconcile_keeps_routine (random_id : nat -> string) (today : string) (w : World) :
  dailyRoutine (st (snd (reconcile random_id today w))) = dailyRoutine (st w).
Proof.
  assert (Hens : forall w1, dailyRoutine (st (snd (ensureDailyTasks random_id today w1)))
                            = dailyRoutine (st w1)).
  { intros w1.
    destruct (existsb (fun t => TaskType_eqb (task_type t) Daily) (tasks (st w1))) eqn:Eh.
    { now rewrite ensureDailyTasks_skip by now left. }
    destruct (dailyRoutine (st w1)) eqn:Er.
    { rewrite ensureDailyTasks_skip by now right. cbn. assumption. }
    rewrite ensureDailyTasks_fire by congruence. cbn. assumption. }
  unfold reconcile, bind at 1.
  destruct (decide (lastOpenDate (st w) = Some today)) as [Hs|Hs].
  - rewrite checkMidnightReset_same by assumption. apply Hens.
  - rewrite checkMidnightReset_differs, performDailyReset_run by assumption.
    cbv zeta. cbn -[ensureDailyTasks]. rewrite Hens. reflexivity.
Qed.

(** ** Claims *)

Section Claims.

Variable random_id : nat -> string.

(** C1: when [lastOpenDate] differs from today, the startup
    reconciliation ([checkMidnightReset] then [ensureDailyTasks]) replaces
    the whole task list by one fresh task per routine template, in routine
    order: the [i]-th gets the identifier of a new [generateId()] call,
    the template's text, [completed = false], [dateAdded = today] and type
    [daily]; nothing of the previous list remains, and [lastOpenDate]
    becomes today. Templates have type [daily], as every template the
    program creates does. *)
Theorem reset_replaces_all_tasks (today : string) (w : World)
  (Hdiff : lastOpenDate (st w) <> Some today)
  (Hdaily : Forall (fun t => tmpl_type t = Daily) (dailyRoutine (st w))) :
  let '(r, w') := reconcile random_id today w in
  r = Normal tt /\
  length (tasks (st w')) = length (dailyRoutine (st w)) /\
  (forall (i : nat) (t : Template), dailyRoutine (st w) !! i = Some t ->
     tasks (st w') !! i =
       Some {| task_id := random_id (id_calls w + i); task_text := tmpl_text t;
               completed := false; task_type := Daily; dateAdded := today |}) /\
  dailyRoutine (st w') = dailyRoutine (st w) /\
  lastOpenDate (st w') = Some today.
Proof.
  unfold reconcile, bind at 1.
  rewrite checkMidnightReset_differs, performDailyReset_run by assumption.
  cbv zeta. cbn -[ensureDailyTasks]. rewrite ensureDailyTasks_skip.
  2:{ cbn. destruct (dailyRoutine (st w)) eqn:E; [now right|left].
      apply existsb_daily_instances; congruence. }
  cbn. split; [reflexivity|]. split; [apply length_instances|].
  split; [|split; reflexivity].
  intros i t Hi. rewrite lookup_instances, Hi. cbn.
  rewrite Forall_lookup in Hdaily. now rewrite (Hdaily i t Hi).
Qed.

(** C3: on the same day ([lastOpenDate = today], so no reset), when no
    task has type [daily] and the routine is non-empty, reconciliation
    sets [tasks] to fresh instances of the routine templates, in routine
    order ([i]-th: identifier of a new [generateId()] call, template text
    and type, [completed = false], [dateAdded = today]), followed by the
    previous tasks unchanged and in order. *)
Theorem backfill_prepends_routine (today : string) (w : World)
  (Hsame : lastOpenDate (st w) = Some today)
  (Hnone : Forall (fun t => task_type t <> Daily) (tasks (st w)))
  (Hne : dailyRoutine (st w) <> []) :
  let '(r, w') := reconcile random_id today w in
  r = Normal tt /\
  exists added : list Task,
    tasks (st w') = (added ++ tasks (st w))%list /\
    length added = length (dailyRoutine (st w)) /\
    (forall (i : nat) (t : Template), dailyRoutine (st w) !! i = Some t ->
       added !! i =
         Some {| task_id := random_id (id_calls w + i); task_text := tmpl_text t;
                 completed := false; task_type := tmpl_type t;
                 dateAdded := today |}).
Proof.
  unfold reconcile, bind at 1. rewrite checkMidnightReset_same by assumption.
  rewrite ensureDailyTasks_fire by (auto using existsb_daily_none).
  cbn. split; [reflexivity|].
  exists (instances random_id today (id_calls w) (dailyRoutine (st w))).
  split; [reflexivity|]. split; [apply length_instances|].
  intros i t Hi. now rewrite lookup_instances, Hi.
Qed.

(** C4: initialization with nothing stored seeds [dailyRoutine] with the
    three [DEFAULT_DAILY_TASKS], sets [lastOpenDate] to today, fills
    [tasks] with one fresh daily task per default template in order, and
    writes storage exactly once, with the final state. *)
Theorem bootstrap_from_empty_store (today : string) (w : World) :
  let '(r, w') := init random_id BlobAbsent today w in
  r = Normal tt /\
  dailyRoutine (st w') = DEFAULT_DAILY_TASKS /\
  length DEFAULT_DAILY_TASKS = 3 /\
  lastOpenDate (st w') = Some today /\
  length (tasks (st w')) = length DEFAULT_DAILY_TASKS /\
  (forall (i : nat) (t : Template), DEFAULT_DAILY_TASKS !! i = Some t ->
     tasks (st w') !! i =
       Some {| task_id := random_id (id_calls w + i); task_text := tmpl_text t;
               completed := false; task_type := Daily; dateAdded := today |}) /\
  storage_writes w' = (storage_writes w ++ [st w'])%list.
Proof.
  destruct w as [s n ws].
  unfold init, bind at 1. cbn -[reconcile mapM].
  unfold bind at 1. rewrite mapM_instantiate. cbn -[reconcile].
  unfold reconcile, bind at 1.
  rewrite checkMidnightReset_same by reflexivity.
  rewrite ensureDailyTasks_skip by (left; reflexivity).
  cbn. do 5 (split; [reflexivity|]). split; [|reflexivity].
  intros i t Hi.
  destruct i as [|[|[|i]]]; cbn in Hi |- *; try discriminate;
    injection Hi as <-; cbn; repeat f_equal; lia.
Qed.

(** C5: on the same day, running the reconciliation twice gives the same
    task list both times; the second run changes nothing at all (no
    reset, no backfill, no write). Templates have type [daily]. *)
Theorem reconcile_same_day_idempotent (today : string) (w : World)
  (Hsame : lastOpenDate (st w) = Some today)
  (Hdaily : Forall (fun t => tmpl_type t = Daily) (dailyRoutine (st w))) :
  let '(r1, w1) := reconcile random_id today w in
  let '(r2, w2) := reconcile random_id today w1 in
  r1 = Normal tt /\ r2 = Normal tt /\ tasks (st w2) = tasks (st w1) /\ w2 = w1.
Proof.
  unfold reconcile at 1, bind at 1. rewrite checkMidnightReset_same by assumption.
  destruct (existsb (fun t => TaskType_eqb (task_type t) Daily) (tasks (st w)))
    eqn:Eh.
  { rewrite ensureDailyTasks_skip by now left.
    unfold reconcile, bind at 1. rewrite checkMidnightReset_same by assumption.
    rewrite ensureDailyTasks_skip by now left. auto. }
  destruct (dailyRoutine (st w)) as [|t0 l0] eqn:Er.
  { rewrite ensureDailyTasks_skip by now right.
    unfold reconcile, bind at 1. rewrite checkMidnightReset_same by assumption.
    rewrite ensureDailyTasks_skip by now right. auto. }
  rewrite ensureDailyTasks_fire by (rewrite ?Er; congruence).
  cbv zeta. unfold reconcile, bind at 1.
  rewrite checkMidnightReset_same by (cbn; assumption).
  rewrite ensureDailyTasks_skip; [auto|].
  left. cbn. rewrite existsb_app, Er, existsb_daily_instances; auto.
Qed.

(** C2 (as the code behaves): [loadState] has no error handling. A stored
    blob that is not valid JSON makes [JSON.parse] throw a [SyntaxError]
    that leaves [loadState] and [init] uncaught, with the in-memory state
    still as it was. A blob that parses is merged key by key over the
    in-memory state (the stored [tasks] and [lastOpenDate] win when
    present); it does not take the first-run bootstrap path: no identifier
    is generated and nothing is written. *)
Theorem load_malformed_propagates (today : string) (w : World) (saved : SavedState) :
  loadState random_id BlobMalformed today w = (Abrupt SyntaxError, w) /\
  init random_id BlobMalformed today w = (Abrupt SyntaxError, w) /\
  let '(r, w') := loadState random_id (BlobParsed saved) today w in
  r = Normal tt /\
  id_calls w' = id_calls w /\
  storage_writes w' = storage_writes w /\
  tasks (st w') = match saved_tasks saved with
                  | Some l => l | None => tasks (st w) end /\
  lastOpenDate (st w') = match saved_lastOpenDate saved with
                         | Some d => d | None => lastOpenDate (st w) end.
Proof.
  split; [reflexivity|]. split; [reflexivity|].
  destruct w as [s n ws]. cbn. auto.
Qed.

(** C7 (as the code behaves): right after a first-run initialization
    [dailyRoutine] holds the three default templates, and reconciliation,
    [toggleTask] and [updateDailyTask] never change its length, for every
    state, identifier, index and text; but [removeDailyTask] has no guard:
    at an in-range index it shortens [dailyRoutine] by exactly one, so
    removing the last remaining template leaves it empty. *)
Theorem routine_length_under_operations (today : string) (w : World)
  (index : Z) (newText id : string) :
  dailyRoutine (st (snd (init random_id BlobAbsent today w))) = DEFAULT_DAILY_TASKS /\
  dailyRoutine (st (snd (reconcile random_id today w))) = dailyRoutine (st w) /\
  dailyRoutine (st (snd (toggleTask id w))) = dailyRoutine (st w) /\
  length (dailyRoutine (st (snd (updateDailyTask index newText w))))
    = length (dailyRoutine (st w)) /\
  ((0 <= index < Z.of_nat (length (dailyRoutine (st w))))%Z ->
   length (dailyRoutine (st (snd (removeDailyTask index w))))
     = length (dailyRoutine (st w)) - 1).
Proof.
  split.
  { pose proof (bootstrap_from_empty_store today w) as H.
    destruct (init random_id BlobAbsent today w) as [r w']. cbn. apply H. }
  split; [apply reconcile_keeps_routine|].
  split.
  { unfold toggleTask, bind at 1; cbn.
    destruct (toggle_first id (tasks (st w))); reflexivity. }
  split.
  { unfold updateDailyTask.
    destruct (negb (String.eqb (trim newText) "")); [|reflexivity].
    unfold bind at 1; cbn. destruct (js_index (dailyRoutine (st w)) index); cbn;
      [apply length_insert|reflexivity]. }
  intros Hin. cbn. now apply length_splice_remove1.
Qed.

(** C8: editing a template's text ([updateDailyTask]) or removing a
    template ([removeDailyTask]) leaves [tasks] (every task, its fields
    and its position), [lastOpenDate] and [settings] unchanged, whatever
    the index and text and whether or not the call throws. *)
Theorem routine_edits_keep_tasks (w : World) (index : Z) (newText : string) :
  let w1 := snd (updateDailyTask index newText w) in
  let w2 := snd (removeDailyTask index w) in
  tasks (st w1) = tasks (st w) /\
  lastOpenDate (st w1) = lastOpenDate (st w) /\
  settings (st w1) = settings (st w) /\
  tasks (st w2) = tasks (st w) /\
  lastOpenDate (st w2) = lastOpenDate (st w) /\
  settings (st w2) = settings (st w).
Proof.
  cbv zeta. split_and!; try reflexivity.
  all: unfold updateDailyTask;
    destruct (negb (String.eqb (trim newText) "")); [|reflexivity];
    unfold bind at 1; cbn;
    destruct (js_index (dailyRoutine (st w)) index); reflexivity.
Qed.

(** C9: with task identifiers unique, [toggleTask id] always completes
    normally, keeps every identifier at its position, flips [completed]
    of the task whose identifier is [id] and leaves every other task as it
    was; when no task has identifier [id], the world is unchanged (no
    error, no write). *)
Theorem toggleTask_flips_in_place (w : World) (id : string)
  (Huniq : NoDup (map task_id (tasks (st w)))) :
  let '(r, w') := toggleTask id w in
  r = Normal tt /\
  map task_id (tasks (st w')) = map task_id (tasks (st w)) /\
  (forall (i : nat) (t : Task), tasks (st w) !! i = Some t ->
     tasks (st w') !! i =
       Some (if String.eqb (task_id t) id
             then {| task_id := task_id t; task_text := task_text t;
                     completed := negb (completed t); task_type := task_type t;
                     dateAdded := dateAdded t |}
             else t)) /\
  (Forall (fun t => task_id t <> id) (tasks (st w)) -> w' = w).
Proof.
  unfold toggleTask, bind at 1, get_state; cbn.
  destruct (toggle_first id (tasks (st w))) as [l|] eqn:E; cbn.
  - split; [reflexivity|]. split; [eapply toggle_first_ids; eauto|].
    split.
    + intros i t Hi. eapply toggle_first_lookup; eauto.
    + intros Hno. apply toggle_first_none in Hno. congruence.
  - split; [reflexivity|]. split; [reflexivity|]. split; [|auto].
    intros i t Hi. rewrite Hi.
    apply toggle_first_none in E. rewrite Forall_lookup in E.
    specialize (E i t Hi). apply String.eqb_neq in E. now rewrite E.
Qed.

(** C10 (as the code behaves): [updateDailyTask index newText] is a no-op
    when [newText] trims to the empty string, whatever [index]. Otherwise,
    at an index [0 <= index < length dailyRoutine] it replaces that
    template's text by the trimmed text (identifier and type kept) and
    saves; at any other index there is no bounds check: assigning [.text]
    on [undefined] throws a [TypeError] and the state is left unchanged. *)
Theorem updateDailyTask_outcomes (w : World) (index : Z) (newText : string) :
  let routine := dailyRoutine (st w) in
  let '(r, w') := updateDailyTask index newText w in
  (trim newText = "" /\ r = Normal tt /\ w' = w) \/
  (trim newText <> "" /\ (0 <= index < Z.of_nat (length routine))%Z /\
   r = Normal tt /\
   (exists t : Template, routine !! Z.to_nat index = Some t /\
      dailyRoutine (st w') =
        <[Z.to_nat index := {| tmpl_id := tmpl_id t; tmpl_text := trim newText;
                               tmpl_type := tmpl_type t |}]> routine) /\
   tasks (st w') = tasks (st w) /\
   storage_writes w' = (storage_writes w ++ [st w'])%list) \/
  (trim newText <> "" /\ ~ (0 <= index < Z.of_nat (length routine))%Z /\
   r = Abrupt TypeError /\ w' = w).
Proof.
  cbv zeta.
  destruct (updateDailyTask index newText w) as [r w'] eqn:Hu.
  unfold updateDailyTask in Hu.
  destruct (String.eqb (trim newText) "") eqn:Et; cbn in Hu.
  { left. apply String.eqb_eq in Et. injection Hu as <- <-. auto. }
  apply String.eqb_neq in Et. right.
  unfold bind, get_state, js_index in Hu; cbn in Hu.
  destruct (0 <=? index)%Z eqn:Hz; [apply Z.leb_le in Hz|apply Z.leb_gt in Hz].
  - destruct (dailyRoutine (st w) !! Z.to_nat index) as [t|] eqn:El.
    + left. injection Hu as <- <-.
      pose proof (lookup_lt_Some _ _ _ El) as Hlen.
      split_and!; auto; [lia|]. exists t. auto.
    + right. injection Hu as <- <-.
      apply lookup_ge_None in El. split_and!; auto. lia.
  - right. injection Hu as <- <-. split_and!; auto. lia.
Qed.

End Claims.

(** ** Concrete counterexamples and evaluations *)

(** C2 counterexample: a stored blob that is not JSON makes [init] end
    with an uncaught [SyntaxError]. *)
Lemma init_malformed_blob_throws :
  fst (init sample_id BlobMalformed "Tue Jan 02 2024" world0) = Abrupt SyntaxError.
Proof. reflexivity. Qed.

(** C6: loading a blob without a [dailyRoutine] key keeps the in-memory
    default [dailyRoutine: []], which is truthy, so the defaults are not
    merged in: [dailyRoutine] stays empty (the stored tasks are kept).
    The following startup reconciliation then resets to an empty task
    list, since the day changed and the routine is empty. *)
Theorem legacy_load_keeps_empty_routine :
  (let '(r, w') := loadState sample_id (BlobParsed legacy_blob) "Tue Jan 02 2024" world0 in
   r = Normal tt /\ dailyRoutine (st w') = [] /\
   dailyRoutine (st w') <> DEFAULT_DAILY_TASKS /\
   tasks (st w') = [mkTask "t1" "Buy milk" true Extra "Mon Jan 01 2024"]) /\
  (let '(r, w') := init sample_id (BlobParsed legacy_blob) "Tue Jan 02 2024" world0 in
   r = Normal tt /\ dailyRoutine (st w') = [] /\ tasks (st w') = []).
Proof. vm_compute. split_and!; try reflexivity; discriminate. Qed.

(** C7 counterexample: after a first-run initialization, removing the
    template at index 0 three times empties [dailyRoutine]. *)
Lemma routine_emptied_after_init :
  let '(_, w1) := init sample_id BlobAbsent "Tue Jan 02 2024" world0 in
  let '(r, w2) := (removeDailyTask 0 ;; removeDailyTask 0 ;; removeDailyTask 0) w1 in
  r = Normal tt /\ dailyRoutine (st w2) = [].
Proof. vm_compute. split; reflexivity. Qed.

(** C10 counterexample: after a first-run initialization (three
    templates), [updateDailyTask(3, "Walk")] throws a [TypeError]. *)
Lemma update_out_of_range_throws :
  let '(_, w1) := init sample_id BlobAbsent "Tue Jan 02 2024" world0 in
  fst (updateDailyTask 3 "Walk" w1) = Abrupt TypeError.
Proof. vm_compute. reflexivity. Qed.

(** ** Witnesses: the claim theorems at concrete inputs *)

Lemma reset_replaces_all_tasks_witness :
  lastOpenDate (st (scenario_world "Mon Jan 01 2024")) <> Some "Tue Jan 02 2024" /\
  Forall (fun t => tmpl_type t = Daily) (dailyRoutine (st (scenario_world "Mon Jan 01 2024"))) /\
  let '(r, w') := reconcile sample_id "Tue Jan 02 2024" (scenario_world "Mon Jan 01 2024") in
  r = Normal tt /\
  length (tasks (st w')) = length (dailyRoutine (st (scenario_world "Mon Jan 01 2024"))) /\
  (forall (i : nat) (t : Template),
     dailyRoutine (st (scenario_world "Mon Jan 01 2024")) !! i = Some t ->
     tasks (st w') !! i =
       Some {| task_id := sample_id (id_calls (scenario_world "Mon Jan 01 2024") + i);
               task_text := tmpl_text t; completed := false; task_type := Daily;
               dateAdded := "Tue Jan 02 2024" |}) /\
  dailyRoutine (st w') = dailyRoutine (st (scenario_world "Mon Jan 01 2024")) /\
  lastOpenDate (st w') = Some "Tue Jan 02 2024".
Proof.
  assert (H1 : lastOpenDate (st (scenario_world "Mon Jan 01 2024")) <> Some "Tue Jan 02 2024")
    by (simpl; discriminate).
  assert (H2 : Forall (fun t => tmpl_type t = Daily)
                 (dailyRoutine (st (scenario_world "Mon Jan 01 2024"))))
    by (simpl; repeat constructor).
  split; [exact H1|]. split; [exact H2|].
  exact (reset_replaces_all_tasks sample_id "Tue Jan 02 2024" _ H1 H2).
Defined.

Lemma backfill_prepends_routine_witness :
  lastOpenDate (st (scenario_world "Tue Jan 02 2024")) = Some "Tue Jan 02 2024" /\
  Forall (fun t => task_type t <> Daily) (tasks (st (scenario_world "Tue Jan 02 2024"))) /\
  dailyRoutine (st (scenario_world "Tue Jan 02 2024")) <> [] /\
  let '(r, w') := reconcile sample_id "Tue Jan 02 2024" (scenario_world "Tue Jan 02 2024") in
  r = Normal tt /\
  exists added : list Task,
    tasks (st w') = (added ++ tasks (st (scenario_world "Tue Jan 02 2024")))%list /\
    length added = length (dailyRoutine (st (scenario_world "Tue Jan 02 2024"))) /\
    (forall (i : nat) (t : Template),
       dailyRoutine (st (scenario_world "Tue Jan 02 2024")) !! i = Some t ->
       added !! i =
         Some {| task_id := sample_id (id_calls (scenario_world "Tue Jan 02 2024") + i);
                 task_text := tmpl_text t; completed := false;
                 task_type := tmpl_type t; dateAdded := "Tue Jan 02 2024" |}).
Proof.
  assert (H1 : lastOpenDate (st (scenario_world "Tue Jan 02 2024")) = Some "Tue Jan 02 2024")
    by reflexivity.
  assert (H2 : Forall (fun t => task_type t <> Daily)
                 (tasks (st (scenario_world "Tue Jan 02 2024"))))
    by (simpl; repeat constructor; discriminate).
  assert (H3 : dailyRoutine (st (scenario_world "Tue Jan 02 2024")) <> [])
    by (simpl; discriminate).
  split; [exact H1|]. split; [exact H2|]. split; [exact H3|].
  exact (backfill_prepends_routine sample_id "Tue Jan 02 2024" _ H1 H2 H3).
Defined.

Lemma reconcile_same_day_idempotent_witness :
  lastOpenDate (st (scenario_world "Tue Jan 02 2024")) = Some "Tue Jan 02 2024" /\
  Forall (fun t => tmpl_type t = Daily) (dailyRoutine (st (scenario_world "Tue Jan 02 2024"))) /\
  let '(r1, w1) := reconcile sample_id "Tue Jan 02 2024" (scenario_world "Tue Jan 02 2024") in
  let '(r2, w2) := reconcile sample_id "Tue Jan 02 2024" w1 in
  r1 = Normal tt /\ r2 = Normal tt /\ tasks (st w2) = tasks (st w1) /\ w2 = w1.
Proof.
  assert (H1 : lastOpenDate (st (scenario_world "Tue Jan 02 2024")) = Some "Tue Jan 02 2024")
    by reflexivity.
  assert (H2 : Forall (fun t => tmpl_type t = Daily)
                 (dailyRoutine (st (scenario_world "Tue Jan 02 2024"))))
    by (simpl; repeat constructor).
  split; [exact H1|]. split; [exact H2|].
  exact (reconcile_same_day_idempotent sample_id "Tue Jan 02 2024" _ H1 H2).
Defined.

Lemma routine_length_under_operations_witness :
  let w1 := snd (init sample_id BlobAbsent "Tue Jan 02 2024" world0) in
  dailyRoutine (st w1) = DEFAULT_DAILY_TASKS /\
  (0 <= 0 < Z.of_nat (length (dailyRoutine (st w1))))%Z /\
  length (dailyRoutine (st (snd (removeDailyTask 0 w1))))
    = length (dailyRoutine (st w1)) - 1 /\
  length (dailyRoutine (st (snd (updateDailyTask 0 "Walk" w1))))
    = length (dailyRoutine (st w1)).
Proof.
  cbv zeta.
  assert (H : (0 <= 0 < Z.of_nat (length (dailyRoutine
                (st (snd (init sample_id BlobAbsent "Tue Jan 02 2024" world0))))))%Z)
    by (simpl; lia).
  destruct (routine_length_under_operations sample_id "Tue Jan 02 2024" world0 0 "Walk" "t1")
    as [H0 _].
  destruct (routine_length_under_operations sample_id "Tue Jan 02 2024"
              (snd (init sample_id BlobAbsent "Tue Jan 02 2024" world0)) 0 "Walk" "t1")
    as [_ [_ [_ [H4 H5]]]].
  split; [exact H0|]. split; [exact H|]. split; [exact (H5 H)|exact H4].
Defined.

Lemma toggleTask_flips_in_place_witness :
  NoDup (map task_id (tasks (st two_task_world))) /\
  let '(r, w') := toggleTask "t2" two_task_world in
  r = Normal tt /\
  map task_id (tasks (st w')) = map task_id (tasks (st two_task_world)) /\
  (forall (i : nat) (t : Task), tasks (st two_task_world) !! i = Some t ->
     tasks (st w') !! i =
       Some (if String.eqb (task_id t) "t2"
             then {| task_id := task_id t; task_text := task_text t;
                     completed := negb (completed t); task_type := task_type t;
                     dateAdded := dateAdded t |}
             else t)) /\
  (Forall (fun t => task_id t <> "t2") (tasks (st two_task_world)) -> w' = two_task_world).
Proof.
  assert (H : NoDup (map task_id (tasks (st two_task_world))))
    by (apply (bool_decide_unpack _); vm_compute; reflexivity).
  split; [exact H|].
  exact (toggleTask_flips_in_place two_task_world "t2" H).
Defined.

(** ** Further properties of the code *)

Lemma list_ascii_of_string_app (a b : string) :
  list_ascii_of_string (a ++ b) = (list_ascii_of_string a ++ list_ascii_of_string b)%list.
Proof. induction a as [|c a IH]; cbn; [reflexivity|]. rewrite <- IH. reflexivity. Qed.

Lemma trim_start_list (s : string) :
  list_ascii_of_string (trim_start s) = drop_spaces (list_ascii_of_string s).
Proof. induction s as [|c s IH]; cbn; [reflexivity|]. now destruct (is_js_space c). Qed.

Lemma drop_spaces_good (l : list ascii) : good_head (drop_spaces l).
Proof.
  induction l as [|c l IH]; cbn; [exact I|].
  destruct (is_js_space c) eqn:E; [exact IH|exact E].
Qed.

Lemma drop_spaces_id (l : list ascii) : good_head l -> drop_spaces l = l.
Proof. destruct l as [|c l]; cbn; [reflexivity|]. now intros ->. Qed.

Lemma drop_spaces_suffix (l : list ascii) :
  exists p, l = (p ++ drop_spaces l)%list.
Proof.
  induction l as [|c l [p Hp]]; cbn; [now exists []|].
  destruct (is_js_space c); [exists (c :: p); cbn; congruence|now exists []].
Qed.

Lemma trim_list (s : string) :
  list_ascii_of_string (trim s) =
  drop_spaces (rev (drop_spaces (rev (list_ascii_of_string s)))).
Proof.
  unfold trim, trim_end. rewrite trim_start_list, list_ascii_of_string_of_list_ascii.
  rewrite trim_start_list, list_ascii_of_string_of_list_ascii. reflexivity.
Qed.

Lemma good_head_rev_suffix (p d : list ascii) :
  good_head (rev (p ++ d)) -> good_head (rev d).
Proof.
  rewrite rev_app_distr. destruct (rev d) eqn:E; cbn; [exact (fun _ => I)|].
  exact (fun H => H).
Qed.

(** X1: JS [trim] is idempotent, so the text [addTask] and
    [updateDailyTask] store (the trimmed input) has no surrounding white
    space left: trimming it again changes nothing. *)
Theorem trim_idempotent (s : string) : trim (trim s) = trim s.
Proof.
  pose proof (f_equal string_of_list_ascii (trim_list (trim s))) as H.
  rewrite !string_of_list_ascii_of_string in H. rewrite H. clear H.
  rewrite trim_list.
  set (m := rev (drop_spaces (rev (list_ascii_of_string s)))).
  set (d := drop_spaces m).
  assert (Hm : good_head (rev m)).
  { unfold m. rewrite rev_involutive. apply drop_spaces_good. }
  assert (Hd : good_head (rev d)).
  { destruct (drop_spaces_suffix m) as [p Hp]. fold d in Hp.
    rewrite Hp in Hm. exact (good_head_rev_suffix p d Hm). }
  rewrite (drop_spaces_id (rev d) Hd), rev_involutive.
  rewrite (drop_spaces_id d (drop_spaces_good m)).
  rewrite <- (string_of_list_ascii_of_string (trim s)), trim_list. reflexivity.
Qed.

Lemma string_app_assoc (a b c : string) : ((a ++ b) ++ c) = (a ++ b ++ c).
Proof.
  induction a as [|x a IH]; [reflexivity|].
  change ((String x ((a ++ b) ++ c)) = String x (a ++ b ++ c)). now rewrite IH.
Qed.

Lemma replace_char_app (c : ascii) (rep a b : string) :
  replace_char c rep (a ++ b) = (replace_char c rep a ++ replace_char c rep b).
Proof.
  induction a as [|x a IH]; [reflexivity|].
  change (replace_char c rep (String x (a ++ b)) =
          (replace_char c rep (String x a) ++ replace_char c rep b)).
  cbn [replace_char]. destruct (Ascii.eqb x c).
  - rewrite IH, string_app_assoc. reflexivity.
  - rewrite IH. reflexivity.
Qed.

Ltac esc_cases c :=
  unfold esc_char; cbn [replace_char];
  destruct (Ascii.eqb c "&") eqn:E1; [apply Ascii.eqb_eq in E1; subst; reflexivity|];
  cbn [replace_char];
  destruct (Ascii.eqb c "<") eqn:E2; [apply Ascii.eqb_eq in E2; subst; reflexivity|];
  cbn [replace_char];
  destruct (Ascii.eqb c ">") eqn:E3; [apply Ascii.eqb_eq in E3; subst; reflexivity|];
  cbn [replace_char];
  destruct (Ascii.eqb c dquote) eqn:E4; [apply Ascii.eqb_eq in E4; subst; reflexivity|];
  cbn [replace_char];
  destruct (Ascii.eqb c "'") eqn:E5; [apply Ascii.eqb_eq in E5; subst; reflexivity|];
  reflexivity.

Lemma escape_passes (s : string) :
  replace_char "'" "&#039;" (replace_char dquote "&quot;" (replace_char ">" "&gt;"
    (replace_char "<" "&lt;" (replace_char "&" "&amp;" s)))) = esc_all s.
Proof.
  induction s as [|c s IH]; [reflexivity|].
  cbn [esc_all]. change (String c s) with (String c EmptyString ++ s).
  rewrite !replace_char_app, IH. f_equal. esc_cases c.
Qed.

Lemma escapeHtml_esc_all (s : string) : escapeHtml s = esc_all s.
Proof.
  unfold escapeHtml. destruct (String.eqb s "") eqn:E.
  - apply String.eqb_eq in E. now subst.
  - apply escape_passes.
Qed.

Lemma esc_char_no_markup (c : ascii) :
  Forall no_markup (list_ascii_of_string (esc_char c)).
Proof.
  unfold esc_char, no_markup.
  destruct (Ascii.eqb c "&") eqn:E1;
    [cbn; repeat constructor; discriminate|].
  destruct (Ascii.eqb c "<") eqn:E2;
    [cbn; repeat constructor; discriminate|].
  destruct (Ascii.eqb c ">") eqn:E3;
    [cbn; repeat constructor; discriminate|].
  destruct (Ascii.eqb c dquote) eqn:E4;
    [cbn; repeat constructor; discriminate|].
  destruct (Ascii.eqb c "'") eqn:E5;
    [cbn; repeat constructor; discriminate|].
  apply Ascii.eqb_neq in E2, E3, E4, E5. cbn. repeat constructor; assumption.
Qed.

(** X2: the output of [escapeHtml] never contains [<], [>], a double
    quote or a single quote, so a task or template text interpolated by
    [renderTasks] or [renderDailySettings] cannot open a tag or close the
    [value="..."] attribute. *)
Theorem escapeHtml_no_markup (s : string) :
  Forall no_markup (list_ascii_of_string (escapeHtml s)).
Proof.
  rewrite escapeHtml_esc_all. induction s as [|c s IH]; cbn [esc_all]; [constructor|].
  rewrite list_ascii_of_string_app. apply Forall_app. split; [apply esc_char_no_markup|exact IH].
Qed.

(** X3: [escapeHtml] returns a text that contains none of [&], [<], [>]
    and the two quotes unchanged. *)
Theorem escapeHtml_plain_text (s : string)
  (Hplain : Forall plain_char (list_ascii_of_string s)) :
  escapeHtml s = s.
Proof.
  rewrite escapeHtml_esc_all. induction s as [|c s IH]; [reflexivity|].
  cbn in Hplain. inversion Hplain as [|? ? [H1 [H2 [H3 [H4 H5]]]] Hs]; subst.
  cbn [esc_all]. rewrite (IH Hs). unfold esc_char.
  apply Ascii.eqb_neq in H1, H2, H3, H4, H5. rewrite H1, H2, H3, H4, H5. reflexivity.
Qed.

Lemma decode_esc_char (c : ascii) (rest : list ascii) :
  decode_entities (list_ascii_of_string (esc_char c) ++ rest) = c :: decode_entities rest.
Proof.
  unfold esc_char.
  destruct (Ascii.eqb c "&") eqn:E1; [apply Ascii.eqb_eq in E1; subst; reflexivity|].
  destruct (Ascii.eqb c "<") eqn:E2; [apply Ascii.eqb_eq in E2; subst; reflexivity|].
  destruct (Ascii.eqb c ">") eqn:E3; [apply Ascii.eqb_eq in E3; subst; reflexivity|].
  destruct (Ascii.eqb c dquote) eqn:E4; [apply Ascii.eqb_eq in E4; subst; reflexivity|].
  destruct (Ascii.eqb c "'") eqn:E5; [apply Ascii.eqb_eq in E5; subst; reflexivity|].
  cbn [list_ascii_of_string app decode_entities]. now rewrite E1.
Qed.

(** X4: decoding the five entities [escapeHtml] writes gives back the
    original text: the page shows exactly the stored task or template
    text, and two different texts never render alike. *)
Theorem escapeHtml_decodes_back (s : string) :
  decode_entities (list_ascii_of_string (escapeHtml s)) = list_ascii_of_string s.
Proof.
  rewrite escapeHtml_esc_all. induction s as [|c s IH]; [reflexivity|].
  cbn [esc_all]. rewrite list_ascii_of_string_app, decode_esc_char, IH. reflexivity.
Qed.

Lemma flip_completed_involutive (t : Task) : flip_completed (flip_completed t) = t.
Proof. destruct t; unfold flip_completed; cbn. now rewrite negb_involutive. Qed.

Lemma toggle_first_involutive (id : string) (l l' : list Task) :
  toggle_first id l = Some l' -> toggle_first id l' = Some l.
Proof.
  revert l'; induction l as [|t l IH]; intros l'; cbn; [discriminate|].
  destruct (String.eqb (task_id t) id) eqn:E.
  - intros [= <-]. cbn. rewrite E, flip_completed_involutive. reflexivity.
  - destruct (toggle_first id l) as [l''|] eqn:Et; cbn; [|discriminate].
    intros [= <-]. cbn. rewrite E, (IH l'' eq_refl). reflexivity.
Qed.

Lemma toggle_first_changes (id : string) (l l' : list Task) :
  toggle_first id l = Some l' -> l' <> l.
Proof.
  revert l'; induction l as [|t l IH]; intros l'; cbn; [discriminate|].
  destruct (String.eqb (task_id t) id).
  - intros [= <-] Heq. injection Heq as Ht.
    destruct t as [i x c ty d]. cbn in Ht. injection Ht. destruct c; discriminate.
  - destruct (toggle_first id l) as [l''|] eqn:Et; cbn; [|discriminate].
    intros [= <-] Heq. injection Heq as Hl. exact (IH l'' eq_refl Hl).
Qed.

Lemma toggle_first_found (id : string) (l l' : list Task) :
  toggle_first id l = Some l' -> exists t, task_id t = id /\ In t l.
Proof.
  revert l'; induction l as [|t l IH]; intros l'; cbn; [discriminate|].
  destruct (String.eqb (task_id t) id) eqn:E.
  - intros _. apply String.eqb_eq in E. exists t. auto.
  - destruct (toggle_first id l) as [l''|] eqn:Et; cbn; [|discriminate].
    intros _. destruct (IH l'' eq_refl) as [u [Hu Hin]]. exists u. auto.
Qed.

Lemma instances_fresh (random_id : nat -> string) (d : string) (n : nat) (l : list Template) :
  Forall (fun t => completed t = false /\ dateAdded t = d) (instances random_id d n l).
Proof. revert n; induction l; intros n; cbn; constructor; auto. Qed.



Section Extras.

Variable random_id : nat -> string.

(** X5: [addTask text] with a text that trims to the empty string does
    nothing at all (no identifier drawn, nothing written). Otherwise it
    appends, after all existing tasks, one task with a new identifier,
    the trimmed text, [completed = false], type [extra] and
    [dateAdded = today], changes nothing else, and writes the new state
    once. *)
Theorem addTask_outcome (text today : string) (w : World) :
  let '(r, w') := addTask random_id text today w in
  r = Normal tt /\
  (trim text = "" -> w' = w) /\
  (trim text <> "" ->
     tasks (st w') =
       (tasks (st w) ++ [{| task_id := random_id (id_calls w); task_text := trim text;
                            completed := false; task_type := Extra;
                            dateAdded := today |}])%list /\
     dailyRoutine (st w') = dailyRoutine (st w) /\
     settings (st w') = settings (st w) /\
     lastOpenDate (st w') = lastOpenDate (st w) /\
     id_calls w' = S (id_calls w) /\
     storage_writes w' = (storage_writes w ++ [st w'])%list).
Proof.
  unfold addTask. destruct (String.eqb (trim text) "") eqn:E.
  - apply String.eqb_eq in E. cbn. split; [reflexivity|]. split; [auto|].
    intros H; contradiction.
  - apply String.eqb_neq in E. destruct w as [s n ws]. cbn.
    split; [reflexivity|]. split; [intros H; contradiction|]. intros _. repeat split.
Qed.

(** X6: [addDailyTemplate] appends one template with a new identifier,
    empty text and type [daily] after the existing templates, leaves
    [tasks], [settings] and [lastOpenDate] alone, and writes the new state
    once. *)
Theorem addDailyTemplate_appends (w : World) :
  let '(r, w') := addDailyTemplate random_id w in
  r = Normal tt /\
  dailyRoutine (st w') =
    (dailyRoutine (st w) ++ [{| tmpl_id := random_id (id_calls w); tmpl_text := "";
                                tmpl_type := Daily |}])%list /\
  tasks (st w') = tasks (st w) /\
  settings (st w') = settings (st w) /\
  lastOpenDate (st w') = lastOpenDate (st w) /\
  storage_writes w' = (storage_writes w ++ [st w'])%list.
Proof. destruct w as [s n ws]. cbn. repeat split. Qed.

(** X7: templates are never checked for empty text: a template just
    added by [addDailyTemplate] (text still empty) becomes, at the next
    reset, a daily task with empty text at the end of the list. *)
Theorem empty_template_becomes_task (today : string) (w : World) :
  let '(r, w') := (addDailyTemplate random_id ;; resetDailyTasks random_id today) w in
  r = Normal tt /\
  length (tasks (st w')) = S (length (dailyRoutine (st w))) /\
  tasks (st w') !! length (dailyRoutine (st w)) =
    Some {| task_id := random_id (S (id_calls w) + length (dailyRoutine (st w)));
            task_text := ""; completed := false; task_type := Daily;
            dateAdded := today |}.
Proof.
  destruct w as [s n ws]. unfold bind at 1. cbn -[resetDailyTasks].
  unfold resetDailyTasks. rewrite performDailyReset_run. cbn.
  split; [reflexivity|].
  split; [rewrite length_instances, length_app; cbn; lia|].
  rewrite lookup_instances, list_lookup_middle by reflexivity. reflexivity.
Qed.

(** X8: toggling the same identifier twice restores the state. When a
    task has that identifier, two snapshots were written: first one with
    the same identifiers in the same order that differs from the original
    state, then the original state itself. When no task has it, nothing
    happened at all: no write, no change. *)
Theorem toggleTask_twice_restores (id : string) (w : World) :
  let '(r, w') := (toggleTask id ;; toggleTask id) w in
  r = Normal tt /\ st w' = st w /\
  (In id (map task_id (tasks (st w))) ->
     exists s1, storage_writes w' = (storage_writes w ++ s1 :: st w :: nil)%list /\
                map task_id (tasks s1) = map task_id (tasks (st w)) /\
                s1 <> st w) /\
  (~ In id (map task_id (tasks (st w))) -> w' = w).
Proof.
  destruct w as [s n ws]. unfold bind at 1, toggleTask at 1, bind at 1, get_state; cbn.
  destruct (toggle_first id (tasks s)) as [l|] eqn:E; cbn.
  - unfold toggleTask, bind, get_state; cbn.
    rewrite (toggle_first_involutive id (tasks s) l E). cbn.
    split; [reflexivity|]. split; [now destruct s|]. split.
    + intros _. exists (set_tasks l s). split; [destruct s; cbn; now rewrite <- app_assoc|].
      split; [exact (toggle_first_ids id (tasks s) l E)|].
      intros Hs. apply (toggle_first_changes id (tasks s) l E).
      pose proof (f_equal tasks Hs) as Ht. destruct s; cbn in Ht |- *. exact Ht.
    + intros Hn. exfalso. apply Hn. apply in_map_iff.
      destruct (toggle_first_found id (tasks s) l E) as [t [Ht Hin]]. eauto.
  - unfold toggleTask, bind, get_state, ret; cbn. rewrite E. cbn.
    split; [reflexivity|]. split; [reflexivity|]. split; [|reflexivity].
    intros Hin. exfalso. apply toggle_first_none in E.
    apply in_map_iff in Hin as [t [Ht Hin]].
    rewrite Forall_forall in E. exact (E t (proj2 (list_elem_of_In _ _) Hin) Ht).
Qed.

(** X9: [removeDailyTask index] follows [splice(index, 1)]: an index at
    or past the end removes nothing, [-1] removes the last template, and
    an index at or below [-length] removes the first one. In every case
    [tasks] is untouched and the state is written once. *)
Theorem removeDailyTask_index_edges (index : Z) (w : World) :
  let routine := dailyRoutine (st w) in
  let w' := snd (removeDailyTask index w) in
  tasks (st w') = tasks (st w) /\
  storage_writes w' = (storage_writes w ++ [st w'])%list /\
  ((Z.of_nat (length routine) <= index)%Z -> dailyRoutine (st w') = routine) /\
  (index = (-1)%Z -> dailyRoutine (st w') = removelast routine) /\
  ((index <= - Z.of_nat (length routine))%Z -> dailyRoutine (st w') = tail routine).
Proof.
  cbv zeta. unfold removeDailyTask, bind; cbn. unfold splice_remove1.
  set (l := dailyRoutine (st w)).
  split; [reflexivity|]. split; [reflexivity|]. split; [|split].
  - intros H. destruct (Z.ltb_spec index 0); [lia|].
    rewrite Z.min_r by lia. rewrite Nat2Z.id, take_ge, drop_ge by lia.
    apply app_nil_r.
  - intros ->. destruct (Z.ltb_spec (-1) 0); [|lia].
    destruct (length l) as [|k] eqn:El.
    + destruct l; [reflexivity|discriminate].
    + replace (Z.to_nat (Z.max (Z.of_nat (S k) + -1) 0)) with k by lia.
      rewrite drop_ge by lia. rewrite app_nil_r, removelast_firstn_len, El. reflexivity.
  - intros H. replace (Z.to_nat (if (index <? 0)%Z then Z.max (Z.of_nat (length l) + index) 0
                                 else Z.min index (Z.of_nat (length l)))) with 0%nat.
    + destruct l; reflexivity.
    + destruct (Z.ltb_spec index 0); lia.
Qed.

(** X10: [ensureDailyTasks] never drops or reorders a task: the task list
    afterwards is some new, uncompleted tasks dated today followed by the
    old list unchanged; [dailyRoutine], [settings] and [lastOpenDate]
    are left alone. *)
Theorem ensureDailyTasks_keeps_existing (today : string) (w : World) :
  let '(r, w') := ensureDailyTasks random_id today w in
  r = Normal tt /\
  (exists added : list Task,
     tasks (st w') = (added ++ tasks (st w))%list /\
     Forall (fun t => completed t = false /\ dateAdded t = today) added) /\
  dailyRoutine (st w') = dailyRoutine (st w) /\
  settings (st w') = settings (st w) /\
  lastOpenDate (st w') = lastOpenDate (st w).
Proof.
  destruct (existsb (fun t => TaskType_eqb (task_type t) Daily) (tasks (st w))) eqn:Eh.
  { rewrite ensureDailyTasks_skip by now left.
    split; [reflexivity|]. split; [now exists []|]. auto. }
  destruct (dailyRoutine (st w)) eqn:Er.
  { rewrite ensureDailyTasks_skip by now right.
    split; [reflexivity|]. split; [now exists []|]. auto. }
  rewrite ensureDailyTasks_fire by congruence. cbn.
  split; [reflexivity|]. split; [|auto].
  eexists. split; [reflexivity|]. apply instances_fresh.
Qed.

(** X11: [checkMidnightReset] always completes normally and leaves
    [lastOpenDate] equal to today, [dailyRoutine] and [settings]
    unchanged; it either does nothing at all or writes its final state
    once. *)
Theorem checkMidnightReset_post (today : string) (w : World) :
  let '(r, w') := checkMidnightReset random_id today w in
  r = Normal tt /\
  lastOpenDate (st w') = Some today /\
  dailyRoutine (st w') = dailyRoutine (st w) /\
  settings (st w') = settings (st w) /\
  (w' = w \/ storage_writes w' = (storage_writes w ++ [st w'])%list).
Proof.
  destruct (decide (lastOpenDate (st w) = Some today)) as [Hs|Hs].
  - rewrite checkMidnightReset_same by assumption. split_and!; auto.
  - rewrite checkMidnightReset_differs, performDailyReset_run by assumption.
    cbn. split; [reflexivity|]. split; [reflexivity|]. auto.
Qed.


(** X13: what [saveState] writes loads back: the last blob written is
    the current state, and loading that blob in a later session (any
    in-memory state) restores exactly this state, with no identifier
    drawn and nothing written. *)
Theorem saved_state_loads_back (today : string) (w w0 : World) :
  last (storage_writes (snd (saveState w))) = Some (st w) /\
  loadState random_id (BlobParsed (snapshot (st w))) today w0 =
    (Normal tt, mkWorld (st w) (id_calls w0) (storage_writes w0)).
Proof.
  split.
  - cbn. apply last_snoc.
  - destruct w as [[t r x d] n ws]. reflexivity.
Qed.

(** X16: [resetDailyTasks] does not look at
    the date: even when [lastOpenDate] is already today it drops every
    task, extra ones included, and replaces the list by one new,
    uncompleted instance per template of the routine, dated today; it
    draws one identifier per template and writes the state once. *)
Theorem resetDailyTasks_ignores_date (today : string) (w : World) :
  let '(r, w') := resetDailyTasks random_id today w in
  r = Normal tt /\
  tasks (st w') = instances random_id today (id_calls w) (dailyRoutine (st w)) /\
  length (tasks (st w')) = length (dailyRoutine (st w)) /\
  Forall (fun t => completed t = false /\ dateAdded t = today) (tasks (st w')) /\
  dailyRoutine (st w') = dailyRoutine (st w) /\
  settings (st w') = settings (st w) /\
  lastOpenDate (st w') = Some today /\
  id_calls w' = id_calls w + length (dailyRoutine (st w)) /\
  storage_writes w' = (storage_writes w ++ [st w'])%list.
Proof.
  unfold resetDailyTasks. rewrite performDailyReset_run. cbn.
  split_and!; try reflexivity.
  - apply length_instances.
  - apply instances_fresh.
Qed.

End Extras.

(** X14: the time display click handler only ever stores ["12h"] or
    ["24h"]: any other value becomes ["12h"], and on those two values
    two clicks restore the whole state. Nothing but [timeFormat]
    changes, and the new state is written once. *)
Theorem toggleTimeFormat_two_values (w : World) :
  let f := timeFormat (settings (st w)) in
  let w1 := snd (toggleTimeFormat w) in
  let x1 := settings (st w1) in
  fst (toggleTimeFormat w) = Normal tt /\
  (timeFormat x1 = "12h" \/ timeFormat x1 = "24h") /\
  (f <> "12h" -> timeFormat x1 = "12h") /\
  (f = "12h" \/ f = "24h" -> st (snd (toggleTimeFormat w1)) = st w) /\
  font x1 = font (settings (st w)) /\
  dateFormat x1 = dateFormat (settings (st w)) /\
  themeColor x1 = themeColor (settings (st w)) /\
  tasks (st w1) = tasks (st w) /\
  dailyRoutine (st w1) = dailyRoutine (st w) /\
  lastOpenDate (st w1) = lastOpenDate (st w) /\
  storage_writes w1 = (storage_writes w ++ [st w1])%list.
Proof.
  destruct w as [[t r [fo tf df tc] d] n ws]. cbv zeta.
  unfold toggleTimeFormat, bind, modify_state, saveState. cbn -[String.eqb].
  destruct (String.eqb tf "12h") eqn:E.
  - apply String.eqb_eq in E. subst tf. cbn.
    split_and!; auto. intros H. congruence.
  - apply String.eqb_neq in E. cbn.
    split_and!; auto. intros [H|H]; [congruence|]. subst tf. reflexivity.
Qed.

(** X15: the date display click handler cycles
    [Month -> MM/DD -> DD/MM -> Month]; an unknown value becomes
    [Month]; the stored value is always one of the three, and three
    clicks from a known value give it back. Nothing but [dateFormat]
    changes, and the new state is written once. *)
Theorem cycleDateFormat_cycle (w : World) :
  let f := dateFormat (settings (st w)) in
  let w1 := snd (cycleDateFormat w) in
  let x1 := settings (st w1) in
  fst (cycleDateFormat w) = Normal tt /\
  In (dateFormat x1) date_formats /\
  (f = "Month" -> dateFormat x1 = "MM/DD") /\
  (f = "MM/DD" -> dateFormat x1 = "DD/MM") /\
  (f = "DD/MM" -> dateFormat x1 = "Month") /\
  (~ In f date_formats -> dateFormat x1 = "Month") /\
  (In f date_formats ->
     dateFormat (settings (st (snd (cycleDateFormat (snd (cycleDateFormat w1)))))) = f) /\
  font x1 = font (settings (st w)) /\
  timeFormat x1 = timeFormat (settings (st w)) /\
  themeColor x1 = themeColor (settings (st w)) /\
  tasks (st w1) = tasks (st w) /\
  dailyRoutine (st w1) = dailyRoutine (st w) /\
  lastOpenDate (st w1) = lastOpenDate (st w) /\
  storage_writes w1 = (storage_writes w ++ [st w1])%list.
Proof.
  destruct w as [[t r [fo tf df tc] d] n ws]. cbv zeta.
  destruct (String.eqb "Month" df) eqn:E1;
    [apply String.eqb_eq in E1; subst df; cbn; split_and!; auto;
     intros H; first [discriminate | exfalso; apply H; cbn; auto]|].
  destruct (String.eqb "MM/DD" df) eqn:E2;
    [apply String.eqb_eq in E2; subst df; cbn; split_and!; auto;
     intros H; first [discriminate | exfalso; apply H; cbn; auto]|].
  destruct (String.eqb "DD/MM" df) eqn:E3;
    [apply String.eqb_eq in E3; subst df; cbn; split_and!; auto;
     intros H; first [discriminate | exfalso; apply H; cbn; auto]|].
  apply String.eqb_neq in E1, E2, E3.
  unfold cycleDateFormat, bind, modify_state, saveState. cbn -[String.eqb].
  rewrite (proj2 (String.eqb_neq _ _) E1), (proj2 (String.eqb_neq _ _) E2),
    (proj2 (String.eqb_neq _ _) E3). cbn.
  split_and!; auto; intros H; [congruence | congruence |].
  cbn in H. intuition congruence.
Qed.

Lemma escapeHtml_plain_text_witness :
  Forall plain_char (list_ascii_of_string "Read 10 pages") /\
  escapeHtml "Read 10 pages" = "Read 10 pages".
Proof.
  assert (H : Forall plain_char (list_ascii_of_string "Read 10 pages")).
  { cbn. repeat constructor; discriminate. }
  split; [exact H | exact (escapeHtml_plain_text "Read 10 pages" H)].
Defined.

